(** * E-commerce API test suite: the client helpers and the setup script

    A shallow embedding of [utils/api_helpers.py] and of [setup.py].

    Python values that travel through the helpers (JSON documents, tokens,
    payloads) are the inductive [pyval]; dictionaries with string keys are
    [gmap string pyval].  Code that can raise returns a [Result]; code that
    mutates the client, talks to the network or writes to the log threads a
    [State] through the monad [M].  The network, and the few pieces of the
    Python runtime that are not worth spelling out (the [repr] of floats and
    containers, the default headers of a fresh [requests.Session]), are
    variables of the section that uses them. *)

From Stdlib Require Import ZArith Floats Ascii.
From stdpp Require Import gmap strings list fin_maps pretty.

Local Set Warnings "-register-all".
Local Open Scope Z_scope.

(** ** Strings *)

Module PyString.

Definition ascii_lower (a : ascii) : ascii :=
  let n := Ascii.nat_of_ascii a in
  if ((65 <=? n) && (n <=? 90))%nat then Ascii.ascii_of_nat (n + 32) else a.

Definition ascii_upper (a : ascii) : ascii :=
  let n := Ascii.nat_of_ascii a in
  if ((97 <=? n) && (n <=? 122))%nat then Ascii.ascii_of_nat (n - 32) else a.

(** [str.lower] and [str.upper], on the ASCII letters that HTTP methods and
    header names are made of. *)
Fixpoint lower (s : string) : string :=
  match s with
  | EmptyString => EmptyString
  | String a r => String (ascii_lower a) (lower r)
  end.

Fixpoint upper (s : string) : string :=
  match s with
  | EmptyString => EmptyString
  | String a r => String (ascii_upper a) (upper r)
  end.

(** [s.rstrip(c)] for a one-character argument. *)
Fixpoint rstrip (c : ascii) (s : string) : string :=
  match s with
  | EmptyString => EmptyString
  | String a r =>
      match rstrip c r with
      | EmptyString => if Ascii.eqb a c then EmptyString else String a EmptyString
      | r' => String a r'
      end
  end.

(** [sub in s] on two strings: [sub] occurs somewhere in [s]. *)
Fixpoint contains (sub s : string) : bool :=
  String.prefix sub s ||
  match s with
  | EmptyString => false
  | String _ r => contains sub r
  end.

(** ['*' * n] *)
Fixpoint stars (n : nat) : string :=
  match n with
  | O => EmptyString
  | S k => String "*" (stars k)
  end.

(** [', '.join(l)] *)
Fixpoint join (sep : string) (l : list string) : string :=
  match l with
  | [] => EmptyString
  | [x] => x
  | x :: r => x +:+ sep +:+ join sep r
  end.

End PyString.

(** ** Exceptions and results *)

(** The exception classes the two files raise, catch or let through. *)
Inductive exc_class : Type :=
| JSONDecodeError
| TypeError
| KeyError
| RequestException
| ConnectionError
| RetryError
| FileNotFoundError
| IsADirectoryError
| PermissionError
| UnicodeDecodeError
| CalledProcessError
| OtherException.

Record exn : Type := Exn { exn_class : exc_class; exn_msg : string }.

(** [isinstance(e, requests.exceptions.RequestException)] *)
Definition is_RequestException (e : exn) : bool :=
  match exn_class e with
  | RequestException | ConnectionError | RetryError => true
  | _ => false
  end.

Definition is_JSONDecodeError (e : exn) : bool :=
  match exn_class e with JSONDecodeError => true | _ => false end.

Definition is_TypeError (e : exn) : bool :=
  match exn_class e with TypeError => true | _ => false end.

Definition is_FileNotFoundError (e : exn) : bool :=
  match exn_class e with FileNotFoundError => true | _ => false end.

Inductive Result (A : Type) : Type :=
| Ok (a : A)
| Raise (e : exn).
Arguments Ok {A} a.
Arguments Raise {A} e.

Definition result_bind {A B} (r : Result A) (k : A -> Result B) : Result B :=
  match r with
  | Ok a => k a
  | Raise e => Raise e
  end.

(** [try: r  except <handled>: h e]; an exception [handled] rejects goes on. *)
Definition result_except {A} (r : Result A) (handled : exn -> bool)
    (h : exn -> Result A) : Result A :=
  match r with
  | Ok a => Ok a
  | Raise e => if handled e then h e else Raise e
  end.

(** ** Python values *)

Inductive pyval : Type :=
| PNone
| PBool (b : bool)
| PInt (z : Z)
| PFloat (f : float)
| PStr (s : string)
| PList (l : list pyval)
| PDict (d : gmap string pyval).

Definition py_type_name (v : pyval) : string :=
  match v with
  | PNone => "NoneType"
  | PBool _ => "bool"
  | PInt _ => "int"
  | PFloat _ => "float"
  | PStr _ => "str"
  | PList _ => "list"
  | PDict _ => "dict"
  end.

(** [x == s] for a string [s]: only an equal string compares equal. *)
Definition py_eq_str (s : string) (x : pyval) : bool :=
  match x with
  | PStr t => String.eqb s t
  | _ => false
  end.

(** [key in data] for a string [key]: key lookup on a dict, element search on
    a list, substring search on a string, [TypeError] on what is not
    iterable. *)
Definition py_contains (key : string) (data : pyval) : Result bool :=
  match data with
  | PDict d => Ok (bool_decide (is_Some (d !! key)))
  | PList l => Ok (existsb (py_eq_str key) l)
  | PStr s => Ok (PyString.contains key s)
  | v => Raise (Exn TypeError
                  ("argument of type '" +:+ py_type_name v +:+ "' is not iterable"))
  end.


(** [str(v)]: a string is itself; [py_repr] stands for the text Python prints
    for floats, lists and dicts. *)
Definition py_str (py_repr : pyval -> string) (v : pyval) : string :=
  match v with
  | PStr s => s
  | PNone => "None"
  | PBool true => "True"
  | PBool false => "False"
  | PInt z => pretty z
  | v => py_repr v
  end.

(** ** [requests.structures.CaseInsensitiveDict]

    The library keeps [lower(key) -> (key, value)]; lookups, membership and
    deletion go through the lower-cased key. *)

Module CaseInsensitiveDict.

Abbreviation t := (gmap string (string * string)).

Definition setitem (k v : string) (m : t) : t := <[PyString.lower k := (k, v)]> m.
Definition delitem (k : string) (m : t) : t := delete (PyString.lower k) m.
Definition contains (k : string) (m : t) : bool :=
  bool_decide (is_Some (m !! PyString.lower k)).
Definition get (k : string) (m : t) : option string := snd <$> m !! PyString.lower k.

(** [m.update(d)]: one [setitem] per item of [d], in order. *)
Definition update (kvs : list (string * string)) (m : t) : t :=
  foldl (fun acc kv => setitem kv.1 kv.2 acc) m kvs.

End CaseInsensitiveDict.

(** ** HTTP: responses, requests on the wire, the environment *)

(** A [requests.Response] as the helpers observe it: the status code, the raw
    body, what [response.json()] does (the parsed document or the exception
    it raises) and the [Retry-After] header, in seconds, when the server sent
    one. *)
Record Response : Type := {
  status_code : Z;
  content : string;
  json : Result pyval;
  retry_after : option nat
}.

(** What one attempt puts on the wire. *)
Record PreparedRequest : Type := {
  req_method : string;
  req_url : string;
  req_headers : CaseInsensitiveDict.t;
  req_json : option pyval;
  req_timeout : option Z
}.

(** What one attempt comes back with: a response, a failure to connect, or a
    connection broken while reading. *)
Inductive wire_outcome : Type :=
| Responded (r : Response)
| ConnectFailed (msg : string)
| ReadFailed (msg : string).

(** The remote service and the library defaults.  [server n req] is the
    outcome of the [n]-th attempt of the run when it carries [req]. *)
Class Network : Type := {
  server : nat -> PreparedRequest -> wire_outcome;
  default_user_agent : string;
  default_accept_encoding : string
}.

(** The Python runtime's [repr] of floats, lists and dicts. *)
Class PyRuntime : Type := { py_repr : pyval -> string }.

(** Keyword arguments of [APIClient.request] that the suite passes on to
    [Session.request].  A header given as [None] removes the session's. *)
Record Kwargs : Type := {
  kw_timeout : option Z;
  kw_json : option pyval;
  kw_headers : option (list (string * option string))
}.

Definition no_kwargs : Kwargs :=
  {| kw_timeout := None; kw_json := None; kw_headers := None |}.


(** ** [urllib3.util.retry.Retry] (1.26, the last line that accepts
    [method_whitelist]) *)

Record Retry : Type := {
  total : nat;
  backoff_factor : nat;
  status_forcelist : list Z;
  method_whitelist : list string;
  raise_on_status : bool;
  respect_retry_after_header : bool
}.

Definition RETRY_AFTER_STATUS_CODES : list Z := [413; 429; 503].
Definition BACKOFF_MAX : nat := 120.

Definition is_method_retryable (r : Retry) (method : string) : bool :=
  match method_whitelist r with
  | [] => true
  | allowed => bool_decide (PyString.upper method ∈ allowed)
  end.

(** [Retry.is_retry], with the remaining [total] of the current retry object
    given apart. *)
Definition is_retry (r : Retry) (remaining : nat) (method : string)
    (status : Z) (has_retry_after : bool) : bool :=
  if negb (is_method_retryable r method) then false
  else if bool_decide (status ∈ status_forcelist r) then true
  else negb (remaining =? 0)%nat && respect_retry_after_header r
       && has_retry_after && bool_decide (status ∈ RETRY_AFTER_STATUS_CODES).

(** [Retry.get_backoff_time] after [failures] consecutive failed attempts. *)
Definition get_backoff_time (r : Retry) (failures : nat) : nat :=
  if (failures <=? 1)%nat then 0%nat
  else Nat.min BACKOFF_MAX (backoff_factor r * 2 ^ (failures - 1))%nat.

(** ** State *)

Inductive log_level : Type := DEBUG | INFO | WARNING | ERROR.

(** The fields of the client object; [session_headers] and [max_retries]
    are those of its [requests.Session] and of the adapter mounted on it. *)
Record APIClient : Type := {
  base_url : string;
  timeout : Z;
  session_headers : CaseInsensitiveDict.t;
  max_retries : Retry;
  auth_token : pyval
}.

(** The mutable world of a run: the one client the helpers share, every
    request put on the wire so far, the sleeps between attempts (seconds) and
    the log records. *)
Record State : Type := {
  client : APIClient;
  wire : list PreparedRequest;
  slept : list nat;
  log : list (log_level * string)
}.

Definition M (A : Type) : Type := State -> Result A * State.

#[export] Instance M_ret : MRet M := fun A a st => (Ok a, st).
#[export] Instance M_bind : MBind M := fun A B k m st =>
  match m st with
  | (Ok a, st') => k a st'
  | (Raise e, st') => (Raise e, st')
  end.

Definition raise {A} (e : exn) : M A := fun st => (Raise e, st).

(** [try: m  except <handled> as e: h e] *)
Definition try_except {A} (m : M A) (handled : exn -> bool) (h : exn -> M A) : M A :=
  fun st =>
    match m st with
    | (Ok a, st') => (Ok a, st')
    | (Raise e, st') => if handled e then h e st' else (Raise e, st')
    end.

Definition lift {A} (r : Result A) : M A := fun st => (r, st).
Definition get_client : M APIClient := fun st => (Ok (client st), st).
Definition put_client (c : APIClient) : M unit := fun st =>
  (Ok tt, {| client := c; wire := wire st; slept := slept st; log := log st |}).
Definition logger (lvl : log_level) (msg : string) : M unit := fun st =>
  (Ok tt, {| client := client st; wire := wire st; slept := slept st;
             log := log st ++ [(lvl, msg)] |}).
Definition time_sleep (seconds : nat) : M unit := fun st =>
  (Ok tt, {| client := client st; wire := wire st;
             slept := slept st ++ [seconds]; log := log st |}).

(** One attempt: the request goes on the wire and the server answers. *)
Definition transmit `{Network} (req : PreparedRequest) : M wire_outcome := fun st =>
  (Ok (server (length (wire st)) req),
   {| client := client st; wire := wire st ++ [req]; slept := slept st;
      log := log st |}).

(** ** The transport: [HTTPConnectionPool.urlopen] under [HTTPAdapter.send] *)

Section Transport.
Context `{Network}.

(** [Retry.sleep]: the server's [Retry-After] when it is honoured and not
    zero, the exponential backoff otherwise; no sleep of zero seconds. *)
Definition Retry_sleep (retries : Retry) (failures : nat)
    (response : option Response) : M unit :=
  match (if respect_retry_after_header retries
         then response ≫= retry_after else None) with
  | Some (S s) => time_sleep (S s)
  | _ =>
      match get_backoff_time retries failures with
      | O => mret tt
      | S b => time_sleep (S b)
      end
  end.

(** The attempt loop.  urllib3 hands each further attempt a new [Retry] with
    [total] one lower and the failure appended to [history]; the two are the
    arguments [remaining] and [failures] here, and [Retry.increment] raising
    [MaxRetryError] is the case [remaining = 0].  requests turns that error
    into [RetryError] when a response caused it and into [ConnectionError]
    otherwise.  A broken read is not retried for a method outside the list. *)
Fixpoint urlopen (remaining failures : nat) (retries : Retry)
    (req : PreparedRequest) : M Response :=
  outcome ← transmit req;
  match outcome with
  | Responded r =>
      if is_retry retries remaining (req_method req) (status_code r)
           (bool_decide (is_Some (retry_after r)))
      then
        match remaining with
        | O =>
            if raise_on_status retries
            then raise (Exn RetryError
                          ("too many " +:+ pretty (status_code r) +:+ " error responses"))
            else mret r
        | S remaining' =>
            Retry_sleep retries (S failures) (Some r);;
            urlopen remaining' (S failures) retries req
        end
      else mret r
  | ConnectFailed msg =>
      match remaining with
      | O => raise (Exn ConnectionError msg)
      | S remaining' =>
          Retry_sleep retries (S failures) None;;
          urlopen remaining' (S failures) retries req
      end
  | ReadFailed msg =>
      if negb (is_method_retryable retries (req_method req))
      then raise (Exn ConnectionError msg)
      else
        match remaining with
        | O => raise (Exn ConnectionError msg)
        | S remaining' =>
            Retry_sleep retries (S failures) None;;
            urlopen remaining' (S failures) retries req
        end
  end.

Definition HTTPAdapter_send (retries : Retry) (req : PreparedRequest) : M Response :=
  urlopen (total retries) 0 retries req.

(** [requests.sessions.merge_setting] on headers: the session's headers
    overlaid with the call's, then every header the call set to [None]
    dropped. *)
Definition merge_setting (request_setting : option (list (string * option string)))
    (session_setting : CaseInsensitiveDict.t) : CaseInsensitiveDict.t :=
  match request_setting with
  | None => session_setting
  | Some items =>
      let merged : gmap string (string * option string) :=
        foldl (fun acc kv => <[PyString.lower kv.1 := (kv.1, kv.2)]> acc)
              ((fun kv : string * string => (kv.1, Some kv.2)) <$> session_setting)
              items in
      omap (fun kv : string * option string => (fun v => (kv.1, v)) <$> kv.2) merged
  end.

(** [Session.request]: the method upper-cased, the headers merged, the
    request sent through the mounted adapter. *)
Definition Session_request (method url : string) (kwargs : Kwargs) : M Response :=
  c ← get_client;
  HTTPAdapter_send (max_retries c)
    {| req_method := PyString.upper method;
       req_url := url;
       req_headers := merge_setting (kw_headers kwargs) (session_headers c);
       req_json := kw_json kwargs;
       req_timeout := kw_timeout kwargs |}.

End Transport.

(** ** class APIClient *)

Module APIClient.
Section Methods.
Context `{Network} `{PyRuntime}.

(** The [Retry(...)] of [__init__]; the last two fields are the library's
    defaults, which the source leaves alone. *)
Definition retry_strategy : Retry :=
  {| total := 3;
     backoff_factor := 1;
     status_forcelist := [429; 500; 502; 503; 504];
     method_whitelist := ["HEAD"; "GET"; "OPTIONS"; "POST"; "PUT"; "DELETE"];
     raise_on_status := true;
     respect_retry_after_header := true |}.

(** [requests.utils.default_headers()], the headers of a fresh session. *)
Definition default_headers : CaseInsensitiveDict.t :=
  CaseInsensitiveDict.update
    [("User-Agent", default_user_agent);
     ("Accept-Encoding", default_accept_encoding);
     ("Accept", "*/*");
     ("Connection", "keep-alive")] ∅.

Definition __init__ (base_url : string) (timeout : Z) : APIClient :=
  {| base_url := PyString.rstrip "/" base_url;
     timeout := timeout;
     session_headers :=
       CaseInsensitiveDict.update
         [("Content-Type", "application/json");
          ("Accept", "application/json");
          ("User-Agent", "EcommerceTestSuite/1.0")] default_headers;
     max_retries := retry_strategy;
     auth_token := PNone |}.

Definition set_headers (c : APIClient) (h : CaseInsensitiveDict.t) : APIClient :=
  {| base_url := base_url c; timeout := timeout c; session_headers := h;
     max_retries := max_retries c; auth_token := auth_token c |}.

Definition set_token (c : APIClient) (tok : pyval) : APIClient :=
  {| base_url := base_url c; timeout := timeout c;
     session_headers := session_headers c;
     max_retries := max_retries c; auth_token := tok |}.

Definition set_auth_token (token : pyval) : M unit :=
  c ← get_client;
  put_client (set_token c token);;
  c ← get_client;
  put_client (set_headers c
    (CaseInsensitiveDict.update
       [("Authorization", "Bearer " +:+ py_str py_repr token)] (session_headers c)));;
  logger INFO "Authentication token set".

Definition clear_auth_token : M unit :=
  c ← get_client;
  put_client (set_token c PNone);;
  c ← get_client;
  (if CaseInsensitiveDict.contains "Authorization" (session_headers c)
   then put_client (set_headers c
          (CaseInsensitiveDict.delitem "Authorization" (session_headers c)))
   else mret tt);;
  logger INFO "Authentication token cleared".

Definition request (method endpoint : string) (kwargs : Kwargs) : M Response :=
  c ← get_client;
  let url := base_url c +:+ endpoint in
  let kwargs :=
    match kw_timeout kwargs with
    | Some _ => kwargs
    | None => {| kw_timeout := Some (timeout c); kw_json := kw_json kwargs;
                 kw_headers := kw_headers kwargs |}
    end in
  logger INFO ("Making " +:+ method +:+ " request to: " +:+ url);;
  match kw_json kwargs with
  | Some payload => logger DEBUG ("Request payload: " +:+ py_str py_repr payload)
  | None => mret tt
  end;;
  try_except
    (response ← Session_request method url kwargs;
     logger INFO ("Response status: " +:+ pretty (status_code response));;
     mret response)
    is_RequestException
    (fun e => logger ERROR ("Request failed: " +:+ exn_msg e);; raise e).

Definition get (endpoint : string) (kwargs : Kwargs) : M Response :=
  request "GET" endpoint kwargs.

Definition post (endpoint : string) (kwargs : Kwargs) : M Response :=
  request "POST" endpoint kwargs.


Definition delete (endpoint : string) (kwargs : Kwargs) : M Response :=
  request "DELETE" endpoint kwargs.


End Methods.
End APIClient.

(** ** class AuthHelper *)

Record AuthHelper : Type := { login_endpoint : string }.

Module AuthHelper.
Section Methods.
Context `{Network} `{PyRuntime}.




Definition logout (logout_endpoint : string) : M bool :=
  try_except
    (response ← APIClient.post logout_endpoint no_kwargs;
     APIClient.clear_auth_token;;
     logger INFO "Logout successful";;
     mret (bool_decide (status_code response ∈ [200; 204])))
    (fun _ => true)
    (fun e =>
       logger ERROR ("Logout error: " +:+ exn_msg e);;
       mret false).

End Methods.
End AuthHelper.

(** ** class CartHelper *)

Module CartHelper.
Section Methods.
Context `{Network} `{PyRuntime}.







End Methods.
End CartHelper.

(** ** class CheckoutHelper *)

Module CheckoutHelper.
Section Methods.
Context `{Network} `{PyRuntime}.





End Methods.
End CheckoutHelper.

(** ** class ResponseValidator *)

Module ResponseValidator.

Definition validate_status_code (response : Response) (expected_status : Z) : Result bool :=
  Ok (status_code response =? expected_status).

Definition validate_json_response (response : Response) : Result bool :=
  result_except
    (result_bind (json response) (fun _ => Ok true))
    is_JSONDecodeError
    (fun _ => Ok false).

(** [all(field in data for field in required_fields)]: stops at the first
    field that is missing, raises where [in] raises. *)
Fixpoint all_fields_in (required_fields : list string) (data : pyval) : Result bool :=
  match required_fields with
  | [] => Ok true
  | field :: rest =>
      result_bind (py_contains field data) (fun present =>
        if present : bool then all_fields_in rest data else Ok false)
  end.

Definition validate_response_schema (response : Response)
    (required_fields : list string) : Result bool :=
  result_except
    (result_bind (json response) (all_fields_in required_fields))
    (fun e => is_JSONDecodeError e || is_TypeError e)
    (fun _ => Ok false).

Definition validate_error_response (response : Response) : Result bool :=
  if 400 <=? status_code response then
    result_except
      (result_bind (json response) (fun data =>
         result_bind (py_contains "error" data) (fun has_error =>
           if has_error : bool then Ok true else py_contains "message" data)))
      is_JSONDecodeError
      (fun _ => Ok false)
  else Ok true.

End ResponseValidator.

(** [obj.get(key, default)]: the [dict] method; any other JSON value has no
    such attribute ([AttributeError], carried as [OtherException]). *)
Definition py_dict_get (obj : pyval) (key : string) (dflt : pyval) : Result pyval :=
  match obj with
  | PDict d => Ok (default dflt (d !! key))
  | v => Raise (Exn OtherException
                  ("'" +:+ py_type_name v +:+ "' object has no attribute 'get'"))
  end.

(** ** class TestDataLoader *)

(** The file system and the JSON parser as [load_test_data] meets them:
    [open_text path] is what opening [path] for reading and reading it to the
    end gives, [json_loads] is [json.loads], [default_test_data_path] the path
    computed from [__file__]. *)
Class FileSystem : Type := {
  open_text : string -> Result string;
  json_loads : string -> Result pyval;
  default_test_data_path : string
}.

Module TestDataLoader.
Section Methods.
Context `{FileSystem}.

(** The result, and the records written to the root logger. *)
Definition load_test_data (file_path : option string)
    : Result pyval * list (log_level * string) :=
  let file_path := default default_test_data_path file_path in
  match result_bind (open_text file_path) json_loads with
  | Ok document => (Ok document, [])
  | Raise e =>
      if is_FileNotFoundError e
      then (Ok (PDict ∅), [(ERROR, "Test data file not found: " +:+ file_path)])
      else if is_JSONDecodeError e
      then (Ok (PDict ∅), [(ERROR, "Invalid JSON in test data file: " +:+ file_path)])
      else (Raise e, [])
  end.

(** [test_data.get(section, {}).get(name, {})] *)
Definition lookup_record (section name : string) (file_path : option string)
    : Result pyval * list (log_level * string) :=
  let '(test_data, records) := load_test_data file_path in
  (result_bind test_data (fun test_data =>
     result_bind (py_dict_get test_data section (PDict ∅)) (fun entries =>
       py_dict_get entries name (PDict ∅))),
   records).

Definition get_user_data (user_type : string) (file_path : option string)
    : Result pyval * list (log_level * string) :=
  lookup_record "valid_users" user_type file_path.

Definition get_product_data (product_type : string) (file_path : option string)
    : Result pyval * list (log_level * string) :=
  lookup_record "products" product_type file_path.

End Methods.
End TestDataLoader.

(** ** Utility functions *)

(** Dict objects live on a heap, so that a copy is a different object from
    its original. *)
Abbreviation Heap := (gmap nat (gmap string pyval)).

(** [d.copy()]: a new object with the items of [d]. *)
Definition dict_copy (d : nat) (heap : Heap) : option (nat * Heap) :=
  items ← heap !! d;
  let fresh_address := fresh (dom heap) in
  Some (fresh_address, <[fresh_address := items]> heap).

Definition DEFAULT_SENSITIVE_FIELDS : list string :=
  ["password"; "token"; "card_number"; "cvv"].

Section Utilities.
Context `{PyRuntime}.

(** One turn of the loop of [mask_sensitive_data] on the object [masked]. *)
Definition mask_field (masked : nat) (heap : Heap) (field : string) : Heap :=
  match heap !! masked with
  | Some items =>
      match items !! field with
      | Some value =>
          <[masked :=
              <[field := PStr (PyString.stars (String.length (py_str py_repr value)))]>
                items]> heap
      | None => heap
      end
  | None => heap
  end.

(** [data] is the address of the input dict; the result is the address of
    the dict returned, and the heap after the call.  [None] only when [data]
    is not the address of a dict. *)
Definition mask_sensitive_data (data : nat) (sensitive_fields : option (list string))
    (heap : Heap) : option (nat * Heap) :=
  let sensitive_fields := default DEFAULT_SENSITIVE_FIELDS sensitive_fields in
  '(masked_data, heap) ← dict_copy data heap;
  Some (masked_data, foldl (mask_field masked_data) heap sensitive_fields).

End Utilities.

(** [int(x)] for a float: the integer part, towards zero; infinities and
    NaN have none ([OverflowError], [ValueError], carried as
    [OtherException]). *)
Definition py_int_of_float (x : float) : Result Z :=
  match Prim2SF x with
  | S754_zero _ => Ok 0
  | S754_finite negative m e =>
      let magnitude :=
        if 0 <=? e then Z.pos m * 2 ^ e else Z.pos m / 2 ^ (- e) in
      Ok (if negative then - magnitude else magnitude)
  | S754_infinity _ =>
      Raise (Exn OtherException "cannot convert float infinity to integer")
  | S754_nan => Raise (Exn OtherException "cannot convert float NaN to integer")
  end.

(** [generate_test_email], given what [time.time()] returns. *)
Definition generate_test_email (now : float) : Result string :=
  result_bind (py_int_of_float now) (fun timestamp =>
    Ok ("test_user_" +:+ pretty timestamp +:+ "@example.com")).

(** ** setup.py *)

Module Setup.

(** What calling a provisioning step does: it returns a truth value or it
    raises an [Exception]. *)
Inductive step_outcome : Type :=
| Returned (ok : bool)
| Raised (e : exn).

Section Script.
(** The machine the script provisions (files, interpreter, subprocesses) and
    the seven step functions acting on it. *)
Variable Machine : Type.
Abbreviation step := (Machine -> step_outcome * Machine).
Variables check_python_version create_virtual_environment install_dependencies
  create_env_file create_reports_directory validate_test_data run_sample_test : step.

Record Run : Type := {
  machine : Machine;
  log : list (log_level * string);
  stdout : list string
}.

Definition logger (lvl : log_level) (msg : string) (r : Run) : Run :=
  {| machine := machine r; log := log r ++ [(lvl, msg)]; stdout := stdout r |}.

Definition steps : list (string * step) :=
  [("Checking Python version", check_python_version);
   ("Creating virtual environment", create_virtual_environment);
   ("Installing dependencies", install_dependencies);
   ("Creating .env file", create_env_file);
   ("Creating reports directory", create_reports_directory);
   ("Validating test data", validate_test_data);
   ("Running sample test", run_sample_test)].

(** The body of the [for] loop of [main]. *)
Definition run_step (acc : list string * Run) (s : string * step) : list string * Run :=
  let '(failed_steps, r) := acc in
  let '(step_name, step_function) := s in
  let r := logger INFO ("Step: " +:+ step_name) r in
  let '(outcome, m) := step_function (machine r) in
  let r := {| machine := m; log := log r; stdout := stdout r |} in
  match outcome with
  | Returned false =>
      (failed_steps ++ [step_name], logger ERROR ("Failed: " +:+ step_name) r)
  | Returned true =>
      (failed_steps, logger INFO ("Completed: " +:+ step_name) r)
  | Raised e =>
      (failed_steps ++ [step_name],
       logger ERROR ("Error in " +:+ step_name +:+ ": " +:+ exn_msg e) r)
  end.

(** The text [print_usage_instructions] prints, abridged. *)
Definition usage_instructions : string := "Setup completed successfully!".

Definition print_usage_instructions (r : Run) : Run :=
  logger INFO "Setup instructions displayed"
    {| machine := machine r; log := log r; stdout := stdout r ++ [usage_instructions] |}.

(** [main] over any list of steps; the result is the exit code of the
    process ([sys.exit(1)], or 0 when [main] returns) and the run. *)
Definition main_with (todo : list (string * step)) (m : Machine) : Z * Run :=
  let r := logger INFO "Starting E-commerce API Test Suite setup..."
             {| machine := m; log := []; stdout := [] |} in
  let '(failed_steps, r) := foldl run_step ([], r) todo in
  match failed_steps with
  | _ :: _ =>
      let r := logger ERROR ("Setup completed with errors. Failed steps: "
                             +:+ PyString.join ", " failed_steps) r in
      let r := logger ERROR
                 "Please check the setup.log file for details and resolve the issues." r in
      (1, r)
  | [] =>
      let r := logger INFO "Setup completed successfully!" r in
      (0, print_usage_instructions r)
  end.

Definition main (m : Machine) : Z * Run := main_with steps m.

(** The outcomes of the steps of [todo] run one after the other from [m],
    and the machine they leave. *)
Fixpoint outcomes (todo : list (string * step)) (m : Machine)
    : list step_outcome * Machine :=
  match todo with
  | [] => ([], m)
  | (_, f) :: rest =>
      let '(o, m') := f m in
      let '(os, m'') := outcomes rest m' in
      (o :: os, m'')
  end.

End Script.
End Setup.

(** ** setup.py: the steps that only touch files *)

Module SetupSteps.

(** The working directory of the script: its regular files with their text,
    its directories, and the paths the user may not read or write. *)
Record Host : Type := {
  files : gmap string string;
  directories : gset string;
  unreadable : gset string;
  unwritable : gset string
}.

(** [Path(p).exists()] *)
Definition path_exists (h : Host) (p : string) : bool :=
  bool_decide (is_Some (files h !! p)) || bool_decide (p ∈ directories h).

(** [open(p, 'r')] followed by [read()]. *)
Definition read_text (h : Host) (p : string) : Result string :=
  if bool_decide (p ∈ directories h)
  then Raise (Exn IsADirectoryError ("[Errno 21] Is a directory: '" +:+ p +:+ "'"))
  else
    match files h !! p with
    | None =>
        Raise (Exn FileNotFoundError
                 ("[Errno 2] No such file or directory: '" +:+ p +:+ "'"))
    | Some text =>
        if bool_decide (p ∈ unreadable h)
        then Raise (Exn PermissionError ("[Errno 13] Permission denied: '" +:+ p +:+ "'"))
        else Ok text
    end.

Definition with_files (h : Host) (fs : gmap string string) : Host :=
  {| files := fs; directories := directories h; unreadable := unreadable h;
     unwritable := unwritable h |}.

Definition with_directories (h : Host) (ds : gset string) : Host :=
  {| files := files h; directories := ds; unreadable := unreadable h;
     unwritable := unwritable h |}.

(** [open(p, 'w')] followed by [write(text)]. *)
Definition write_text (h : Host) (p text : string) : Result Host :=
  if bool_decide (p ∈ directories h)
  then Raise (Exn IsADirectoryError ("[Errno 21] Is a directory: '" +:+ p +:+ "'"))
  else if bool_decide (p ∈ unwritable h)
  then Raise (Exn PermissionError ("[Errno 13] Permission denied: '" +:+ p +:+ "'"))
  else Ok (with_files h (<[p := text]> (files h))).

(** [Path(p).mkdir(exist_ok=True)] *)
Definition mkdir_exist_ok (h : Host) (p : string) : Result Host :=
  if bool_decide (p ∈ directories h) then Ok h
  else if bool_decide (is_Some (files h !! p))
  then Raise (Exn OtherException ("[Errno 17] File exists: '" +:+ p +:+ "'"))
  else if bool_decide (p ∈ unwritable h)
  then Raise (Exn PermissionError ("[Errno 13] Permission denied: '" +:+ p +:+ "'"))
  else Ok (with_directories h ({[p]} ∪ directories h)).

(** What a step gives back: its result, the host it leaves and the records
    it logs. *)
Record Outcome : Type := {
  result : Result bool;
  host : Host;
  records : list (log_level * string)
}.

Definition ENV_FILE : string := ".env".
Definition TEMPLATE_FILE : string := ".env.template".
Definition REPORTS_DIR : string := "reports".
Definition TEST_DATA_FILE : string := "data/test_data.json".
Definition REQUIRED_KEYS : list string := ["base_url"; "endpoints"; "valid_users"].

Definition create_env_file (h : Host) : Outcome :=
  if path_exists h ENV_FILE then
    {| result := Ok true; host := h; records := [(INFO, ".env file already exists")] |}
  else if negb (path_exists h TEMPLATE_FILE) then
    {| result := Ok true; host := h;
       records := [(WARNING, ".env.template not found, skipping .env creation")] |}
  else
    let announce := (INFO, "Creating .env file from template...") in
    match result_bind (read_text h TEMPLATE_FILE) (write_text h ENV_FILE) with
    | Ok h' =>
        {| result := Ok true; host := h';
           records := [announce;
                       (INFO, ".env file created. Please update it with your actual values.")] |}
    | Raise e =>
        {| result := Ok false; host := h;
           records := [announce;
                       (ERROR, "Failed to create .env file: " +:+ exn_msg e)] |}
    end.

Definition create_reports_directory (h : Host) : Outcome :=
  if negb (path_exists h REPORTS_DIR) then
    match mkdir_exist_ok h REPORTS_DIR with
    | Ok h' =>
        {| result := Ok true; host := h';
           records := [(INFO, "Reports directory created")] |}
    | Raise e =>
        {| result := Ok false; host := h;
           records := [(ERROR, "Failed to create reports directory: " +:+ exn_msg e)] |}
    end
  else {| result := Ok true; host := h; records := [] |}.

Section WithParser.
(** [json.loads] *)
Variable json_loads : string -> Result pyval.

(** The [for] loop of [validate_test_data]: the first required key that is
    not [in] the document, if there is one. *)
Fixpoint first_missing_key (keys : list string) (test_data : pyval)
    : Result (option string) :=
  match keys with
  | [] => Ok None
  | key :: rest =>
      result_bind (py_contains key test_data) (fun present =>
        if present : bool then first_missing_key rest test_data else Ok (Some key))
  end.

Definition validate_test_data (h : Host) : Outcome :=
  if negb (path_exists h TEST_DATA_FILE) then
    {| result := Ok false; host := h; records := [(ERROR, "test_data.json not found")] |}
  else
    match result_bind (result_bind (read_text h TEST_DATA_FILE) json_loads)
            (first_missing_key REQUIRED_KEYS) with
    | Ok None =>
        {| result := Ok true; host := h;
           records := [(INFO, "Test data validation passed")] |}
    | Ok (Some key) =>
        {| result := Ok false; host := h;
           records := [(ERROR, "Required key '" +:+ key
                               +:+ "' not found in test_data.json")] |}
    | Raise e =>
        {| result := Ok false; host := h;
           records :=
             [(ERROR,
               (if is_JSONDecodeError e then "Invalid JSON in test_data.json: "
                else "Failed to validate test data: ") +:+ exn_msg e)] |}
    end.

End WithParser.
End SetupSteps.

(** ** Sample environments and inputs *)

Definition plain_repr : PyRuntime := {| py_repr := fun _ => "<object>" |}.

(** A response with the given status and body, as [requests] would present
    it: [parsed] is what [json()] returns or raises. *)
Definition response_of (status : Z) (body : string) (parsed : Result pyval) : Response :=
  {| status_code := status; content := body; json := parsed; retry_after := None |}.

Definition not_json : Result pyval :=
  Raise (Exn JSONDecodeError "Expecting value: line 1 column 1 (char 0)").

(** A server that answers every attempt with the same response. *)
Definition always_answers (r : Response) : Network :=
  {| server := fun _ _ => Responded r;
     default_user_agent := "python-requests/2.25.1";
     default_accept_encoding := "gzip, deflate" |}.


(** No server: every attempt fails to connect. *)
Definition unreachable : Network :=
  {| server := fun _ _ => ConnectFailed "Connection refused";
     default_user_agent := "python-requests/2.25.1";
     default_accept_encoding := "gzip, deflate" |}.

(** The state right after [APIClient(base_url)]. *)
Definition fresh_state `{Network} `{PyRuntime} (base_url : string) : State :=
  {| client := APIClient.__init__ base_url 30; wire := []; slept := []; log := [] |}.

(** A file system with one directory, one JSON file and one file that is not
    JSON. *)
Definition sample_files : FileSystem :=
  {| open_text := fun path =>
       if String.eqb path "reports" then
         Raise (Exn IsADirectoryError "[Errno 21] Is a directory: 'reports'")
       else if String.eqb path "data/test_data.json" then Ok "{}"
       else if String.eqb path "README.md" then Ok "# E-commerce"
       else Raise (Exn FileNotFoundError
                     ("[Errno 2] No such file or directory: '" +:+ path +:+ "'"));
     json_loads := fun text =>
       if String.eqb text "{}" then Ok (PDict ∅) else not_json;
     default_test_data_path := "data/test_data.json" |}.

(** * Vocabulary of the properties *)

(** ** States and requests *)

(** The state once [req] has been put on the wire. *)
Definition sent (req : PreparedRequest) (st : State) : State :=
  {| client := client st; wire := wire st ++ [req]; slept := slept st; log := log st |}.

(** The state after [Retry.sleep]. *)
Definition rested (retries : Retry) (failures : nat) (response : option Response)
    (st : State) : State :=
  (Retry_sleep retries failures response st).2.

(** The request that [APIClient.request] hands to the transport. *)
Definition prepared (c : APIClient) (method endpoint : string) (kwargs : Kwargs)
    : PreparedRequest :=
  {| req_method := PyString.upper method;
     req_url := base_url c +:+ endpoint;
     req_headers := merge_setting (kw_headers kwargs) (session_headers c);
     req_json := kw_json kwargs;
     req_timeout := Some (default (timeout c) (kw_timeout kwargs)) |}.

(** The state with [records] appended to the log. *)
Definition logged (records : list (log_level * string)) (st : State) : State :=
  {| client := client st; wire := wire st; slept := slept st;
     log := log st ++ records |}.

Section ClientVocabulary.
Context `{Network} `{PyRuntime}.

(** The state when [APIClient.request] reaches its [try]. *)
Definition announced (method endpoint : string) (kwargs : Kwargs) (st : State) : State :=
  logged
    ((INFO, "Making " +:+ method +:+ " request to: " +:+ (base_url (client st) +:+ endpoint))
     :: match kw_json kwargs with
        | Some payload => [(DEBUG, "Request payload: " +:+ py_str py_repr payload)]
        | None => []
        end) st.

(** The attempts of one call of [APIClient.request]. *)
Definition attempts (method endpoint : string) (kwargs : Kwargs) (st : State)
    : Result Response * State :=
  urlopen (total (max_retries (client st))) 0 (max_retries (client st))
    (prepared (client st) method endpoint kwargs) (announced method endpoint kwargs st).







(** ** AuthHelper *)




(** ** mask_sensitive_data *)

(** The value a sensitive field is replaced with. *)
Definition masked_value (v : pyval) : pyval :=
  PStr (PyString.stars (String.length (py_str py_repr v))).

(** The items of the copy once the fields of [seen] have been gone through. *)
Definition masked_so_far (items : gmap string pyval) (seen : list string)
    (out : gmap string pyval) : Prop :=
  forall k, out !! k
            = (fun v => if bool_decide (k ∈ seen) then masked_value v else v) <$> items !! k.

End ClientVocabulary.

(** ** setup.py *)

(** The step returned [True]. *)
Definition succeeded (o : Setup.step_outcome) : bool :=
  match o with
  | Setup.Returned true => true
  | _ => false
  end.

Section SetupVocabulary.
Variable Machine : Type.

(** The names of the steps of [todo] whose outcome in [os] is not a returned
    [True]. *)
Fixpoint failed_names (todo : list (string * (Machine -> Setup.step_outcome * Machine)))
    (os : list Setup.step_outcome) : list string :=
  match todo, os with
  | (name, _) :: todo', o :: os' =>
      if succeeded o then failed_names todo' os' else name :: failed_names todo' os'
  | _, _ => []
  end.

End SetupVocabulary.
Arguments failed_names {Machine} todo os.

(** ** Concrete servers and inputs *)

(** A login payload on a heap that holds nothing else. *)
Definition login_payload : gmap string pyval :=
  <["email" := PStr "user@example.com"]> (<["password" := PStr "hunter2"]> ∅).




Definition no_content : Response := response_of 204 "" not_json.





Definition logout_service : Network := always_answers no_content.



(** ** Vocabulary of the further properties *)

(** [n] copies of the character [c]. *)
Fixpoint copies (c : ascii) (n : nat) : string :=
  match n with
  | O => EmptyString
  | S k => String c (copies c k)
  end.

(** The requests put on the wire between two states of one run. *)
Definition new_requests (before after : State) : list PreparedRequest :=
  drop (length (wire before)) (wire after).






(** A fixture file with one user and one product, a fixture that is a JSON
    array, and nothing else. *)
Definition fixture_document : pyval :=
  PDict (<["valid_users" :=
             PDict {[ "standard_user" :=
                        PDict {[ "email" := PStr "user@example.com" ]} ]}]>
           (<["products" := PDict {[ "laptop" := PDict {[ "id" := PInt 1 ]} ]}]> ∅)).

Definition fixture_files : FileSystem :=
  {| open_text := fun path =>
       if String.eqb path "data/test_data.json" then Ok "fixture"
       else if String.eqb path "data/array.json" then Ok "array"
       else Raise (Exn FileNotFoundError
                     ("[Errno 2] No such file or directory: '" +:+ path +:+ "'"));
     json_loads := fun text =>
       if String.eqb text "fixture" then Ok fixture_document
       else if String.eqb text "array" then Ok (PList [])
       else not_json;
     default_test_data_path := "data/test_data.json" |}.




(** ** Proof automation *)

(** Unfolds the operations of [M]. *)
Ltac unfold_monad :=
  unfold mbind, M_bind, mret, M_ret, raise, lift, get_client, put_client,
    logger, time_sleep, try_except, transmit in *.



(** * Properties *)

(** ** ResponseValidator *)

Module ValidatorFacts.
Import ResponseValidator.

Lemma all_fields_in_dict (fields : list string) (d : gmap string pyval) :
  all_fields_in fields (PDict d)
  = Ok (forallb (fun f => bool_decide (is_Some (d !! f))) fields).
Proof.
  induction fields as [|f fields IH]; simpl; [done|].
  destruct (bool_decide (is_Some (d !! f))); simpl; [apply IH | done].
Qed.

(** What [validate_error_response] does on the bodies it was written for:
    a JSON object is accepted exactly when it has one of the two keys. *)
Lemma validate_error_response_dict (r : Response) (d : gmap string pyval) :
  400 <= status_code r -> json r = Ok (PDict d) ->
  validate_error_response r
  = Ok (bool_decide (is_Some (d !! "error")) || bool_decide (is_Some (d !! "message"))).
Proof.
  intros Hs Hj. unfold validate_error_response.
  destruct (Z.leb_spec 400 (status_code r)); [|lia].
  rewrite Hj. simpl. by destruct (bool_decide (is_Some (d !! "error"))).
Qed.

Lemma validate_error_response_success_status (r : Response) :
  status_code r < 400 -> validate_error_response r = Ok true.
Proof.
  intros Hs. unfold validate_error_response.
  destruct (Z.leb_spec 400 (status_code r)); [lia | done].
Qed.

(** C4, at the failing input.  An error status whose body is the JSON
    document [null] has neither an [error] nor a [message] field, and
    [validate_error_response] does not return false on it: the membership
    test raises [TypeError], which only [validate_response_schema] catches. *)
Lemma validate_error_response_null_body_raises :
  validate_error_response (response_of 500 "null" (Ok PNone))
    = Raise (Exn TypeError "argument of type 'NoneType' is not iterable")
  /\ validate_response_schema (response_of 500 "null" (Ok PNone)) ["error"] = Ok false.
Proof. split; reflexivity. Qed.

(** C8, as the code has it.  When [response.json()] raises [JSONDecodeError]
    no predicate raises: [validate_json_response] and
    [validate_response_schema] return false, [validate_error_response]
    returns false for a status of 400 or more and true below, and
    [validate_status_code] returns whether the status is the expected one. *)
Theorem validators_on_unparsable_body (r : Response) (e : exn)
    (expected_status : Z) (required_fields : list string) :
  json r = Raise e -> is_JSONDecodeError e = true ->
  validate_status_code r expected_status = Ok (status_code r =? expected_status)
  /\ validate_json_response r = Ok false
  /\ validate_response_schema r required_fields = Ok false
  /\ validate_error_response r = Ok (status_code r <? 400).
Proof.
  intros Hj He. repeat split.
  - unfold validate_json_response. rewrite Hj. simpl. by rewrite He.
  - unfold validate_response_schema. rewrite Hj. simpl. by rewrite He.
  - unfold validate_error_response. rewrite Hj. simpl. rewrite He.
    destruct (Z.leb_spec 400 (status_code r)), (Z.ltb_spec (status_code r) 400);
      first [done | lia].
Qed.

Lemma validators_on_unparsable_body_witness :
  validate_status_code (response_of 502 "<html>" not_json) 200 = Ok (502 =? 200)
  /\ validate_json_response (response_of 502 "<html>" not_json) = Ok false
  /\ validate_response_schema (response_of 502 "<html>" not_json) ["error"] = Ok false
  /\ validate_error_response (response_of 502 "<html>" not_json) = Ok (502 <? 400).
Proof.
  exact (validators_on_unparsable_body (response_of 502 "<html>" not_json)
           (Exn JSONDecodeError "Expecting value: line 1 column 1 (char 0)")
           200 ["error"] eq_refl eq_refl).
Defined.

(** C8 as stated fails: on a body that is not JSON, [validate_status_code]
    and [validate_error_response] return true when the status is the
    expected one, respectively below 400. *)
Lemma validators_true_on_unparsable_body :
  json (response_of 200 "<html>" not_json) = not_json
  /\ validate_status_code (response_of 200 "<html>" not_json) 200 = Ok true
  /\ validate_error_response (response_of 200 "<html>" not_json) = Ok true.
Proof. repeat split. Qed.

End ValidatorFacts.

(** ** TestDataLoader *)

Module LoaderFacts.
Import TestDataLoader.

(** C6, as the code has it.  A missing file and a file that is not JSON each
    give the empty mapping and one error record; a file that parses gives its
    document and no record; any other exception of opening, reading or
    parsing (a directory, a file that may not be read, bytes that do not
    decode) leaves [load_test_data] as it was raised. *)
Theorem load_test_data_outcomes `{FileSystem} (file_path : option string) :
  let path := default default_test_data_path file_path in
  (forall e, open_text path = Raise e -> is_FileNotFoundError e = true ->
     load_test_data file_path
     = (Ok (PDict ∅), [(ERROR, "Test data file not found: " +:+ path)]))
  /\ (forall text e, open_text path = Ok text -> json_loads text = Raise e ->
        is_JSONDecodeError e = true ->
        load_test_data file_path
        = (Ok (PDict ∅), [(ERROR, "Invalid JSON in test data file: " +:+ path)]))
  /\ (forall text document, open_text path = Ok text ->
        json_loads text = Ok document ->
        load_test_data file_path = (Ok document, []))
  /\ (forall e, result_bind (open_text path) json_loads = Raise e ->
        is_FileNotFoundError e = false -> is_JSONDecodeError e = false ->
        load_test_data file_path = (Raise e, [])).
Proof.
  intros path. unfold load_test_data. fold path. repeat split.
  - intros e Ho He. rewrite Ho. simpl. by rewrite He.
  - intros text e Ho Hj He. rewrite Ho. simpl. rewrite Hj.
    destruct e as [[] msg]; simpl in *; done.
  - intros text document Ho Hj. rewrite Ho. simpl. by rewrite Hj.
  - intros e Hr He1 He2. rewrite Hr. by rewrite He1, He2.
Qed.

Lemma load_test_data_outcomes_witness :
  @load_test_data sample_files (Some "missing.json")
    = (Ok (PDict ∅), [(ERROR, "Test data file not found: missing.json")])
  /\ @load_test_data sample_files (Some "README.md")
    = (Ok (PDict ∅), [(ERROR, "Invalid JSON in test data file: README.md")])
  /\ @load_test_data sample_files None = (Ok (PDict ∅), []).
Proof.
  pose proof (@load_test_data_outcomes sample_files (Some "missing.json")) as (H1 & _).
  pose proof (@load_test_data_outcomes sample_files (Some "README.md")) as (_ & H2 & _).
  pose proof (@load_test_data_outcomes sample_files None) as (_ & _ & H3 & _).
  split; [|split].
  - exact (H1 _ eq_refl eq_refl).
  - exact (H2 _ _ eq_refl eq_refl eq_refl).
  - exact (H3 _ _ eq_refl eq_refl).
Defined.

(** C6 as stated fails: on the path of a directory [open] raises
    [IsADirectoryError], which neither handler catches. *)
Lemma load_test_data_directory_raises :
  @load_test_data sample_files (Some "reports")
  = (Raise (Exn IsADirectoryError "[Errno 21] Is a directory: 'reports'"), []).
Proof. reflexivity. Qed.

End LoaderFacts.

(** ** mask_sensitive_data *)

Module MaskFacts.
Section Facts.
Context `{PyRuntime}.

Lemma length_stars (n : nat) : String.length (PyString.stars n) = n.
Proof. induction n as [|n IH]; simpl; congruence. Qed.

Lemma masked_value_idem (v : pyval) : masked_value (masked_value v) = masked_value v.
Proof. unfold masked_value. simpl. by rewrite length_stars. Qed.

Lemma elem_of_snoc (k field : string) (seen : list string) :
  k ∈ seen ++ [field] <-> k ∈ seen \/ k = field.
Proof. by rewrite elem_of_app, list_elem_of_singleton. Qed.

Lemma mask_field_step (masked : nat) (heap : Heap) (items out : gmap string pyval)
    (seen : list string) (field : string) :
  heap !! masked = Some out -> masked_so_far items seen out ->
  exists out', mask_field masked heap field !! masked = Some out'
    /\ masked_so_far items (seen ++ [field]) out'
    /\ forall l, l ≠ masked -> mask_field masked heap field !! l = heap !! l.
Proof.
  intros Hm Hout. unfold mask_field. rewrite Hm.
  pose proof (Hout field) as Hf.
  destruct (items !! field) as [v|] eqn:Hv; cbn in Hf; rewrite Hf.
  - eexists. split; [apply lookup_insert_eq|]. split.
    + intros k. destruct (decide (k = field)) as [->|Hne].
      * rewrite lookup_insert_eq, Hv. cbn.
        rewrite (bool_decide_eq_true_2 (field ∈ seen ++ [field]))
          by (apply elem_of_snoc; by right).
        f_equal. case_bool_decide; [apply masked_value_idem | done].
      * rewrite lookup_insert_ne by done. rewrite Hout.
        destruct (items !! k); cbn; [|done].
        f_equal. repeat case_bool_decide; try done;
          rewrite elem_of_snoc in *; tauto.
    + intros l Hl. by rewrite lookup_insert_ne.
  - exists out. split; [done|]. split; [|done].
    intros k. rewrite Hout. destruct (decide (k = field)) as [->|Hne].
    + by rewrite Hv.
    + destruct (items !! k); cbn; [|done].
      f_equal. repeat case_bool_decide; try done;
        rewrite elem_of_snoc in *; tauto.
Qed.

Lemma mask_fields_loop (masked : nat) (items : gmap string pyval) (fields : list string) :
  forall (heap : Heap) (out : gmap string pyval) (seen : list string),
  heap !! masked = Some out -> masked_so_far items seen out ->
  exists out', foldl (mask_field masked) heap fields !! masked = Some out'
    /\ masked_so_far items (seen ++ fields) out'
    /\ forall l, l ≠ masked -> foldl (mask_field masked) heap fields !! l = heap !! l.
Proof.
  induction fields as [|f fields IH]; intros heap out seen Hm Hout; simpl.
  - exists out. by rewrite app_nil_r.
  - destruct (mask_field_step masked heap items out seen f Hm Hout)
      as (out1 & Hm1 & Hout1 & Hframe1).
    destruct (IH _ _ _ Hm1 Hout1) as (out' & Hm' & Hout' & Hframe').
    exists out'. split; [done|]. split.
    + by rewrite <- app_assoc in Hout'.
    + intros l Hl. rewrite Hframe' by done. by apply Hframe1.
Qed.


End Facts.


End MaskFacts.

(** ** setup.py: main *)

Module SetupFacts.
Import Setup.

Section Facts.
Variable Machine : Type.
Abbreviation step := (Machine -> step_outcome * Machine).

Lemma run_step_spec (failed : list string) (r : Run Machine) (name : string) (f : step) :
  let acc := run_step Machine (failed, r) (name, f) in
  machine _ acc.2 = (f (machine _ r)).2
  /\ stdout _ acc.2 = stdout _ r
  /\ acc.1 = failed ++ (if succeeded (f (machine _ r)).1 then [] else [name])
  /\ exists rest, log _ acc.2 = log _ r ++ (INFO, "Step: " +:+ name) :: rest.
Proof.
  unfold run_step. simpl. destruct (f (machine _ r)) as [[[]|e] m1]; simpl;
    rewrite ?app_nil_r; repeat split; try done;
    rewrite <- app_assoc; simpl; eauto.
Qed.

Lemma loop_spec (todo : list (string * step)) :
  forall (failed : list string) (r : Run Machine),
  let acc := foldl (run_step Machine) (failed, r) todo in
  machine _ acc.2 = (outcomes Machine todo (machine _ r)).2
  /\ stdout _ acc.2 = stdout _ r
  /\ acc.1 = failed ++ failed_names todo (outcomes Machine todo (machine _ r)).1
  /\ length (outcomes Machine todo (machine _ r)).1 = length todo
  /\ (forall rec, rec ∈ log _ r -> rec ∈ log _ acc.2)
  /\ (forall s, s ∈ todo -> (INFO, "Step: " +:+ s.1) ∈ log _ acc.2).
Proof.
  induction todo as [|[name f] todo IH]; intros failed r.
  - simpl. rewrite app_nil_r. repeat split; try done.
    intros s Hs. by apply elem_of_nil in Hs.
  - cbn [foldl outcomes length].
    pose proof (run_step_spec failed r name f) as Hs. cbv zeta in Hs.
    destruct (run_step Machine (failed, r) (name, f)) as [failed1 r1].
    destruct Hs as (Hm & Hout & Hfailed & rest & Hlog). cbn [fst snd] in *.
    destruct (IH failed1 r1) as (IHm & IHout & IHfailed & IHlen & IHmono & IHlog).
    rewrite Hm in IHm, IHfailed, IHlen.
    destruct (f (machine _ r)) as [o m1]. cbn [fst snd] in *.
    destruct (outcomes Machine todo m1) as [os m2]. cbn [fst snd length failed_names] in *.
    repeat split.
    + done.
    + congruence.
    + rewrite IHfailed, Hfailed. destruct (succeeded o); simpl;
        by rewrite <- ?app_assoc, ?app_nil_r.
    + by rewrite IHlen.
    + intros rec Hrec. apply IHmono. rewrite Hlog. apply elem_of_app. by left.
    + intros s Hs. apply elem_of_cons in Hs as [->|Hs]; [|by apply IHlog].
      apply IHmono. rewrite Hlog. apply elem_of_app. right. apply elem_of_cons. by left.
Qed.


Variables check_python_version create_virtual_environment install_dependencies
  create_env_file create_reports_directory validate_test_data run_sample_test : step.

Abbreviation the_steps :=
  (steps Machine check_python_version create_virtual_environment install_dependencies
     create_env_file create_reports_directory validate_test_data run_sample_test).
Abbreviation the_main :=
  (main Machine check_python_version create_virtual_environment install_dependencies
     create_env_file create_reports_directory validate_test_data run_sample_test).


End Facts.
End SetupFacts.

(** ** The transport *)

Module TransportFacts.
Section Facts.
Context `{Network}.

Lemma rested_frame (retries : Retry) (failures : nat) (response : option Response)
    (st : State) :
  client (rested retries failures response st) = client st
  /\ wire (rested retries failures response st) = wire st
  /\ log (rested retries failures response st) = log st.
Proof.
  unfold rested, Retry_sleep.
  destruct (if respect_retry_after_header retries then _ else _) as [[|s]|];
    destruct (get_backoff_time retries failures); done.
Qed.

Lemma urlopen_unfold (remaining failures : nat) (retries : Retry)
    (req : PreparedRequest) (st : State) :
  urlopen remaining failures retries req st
  = match server (length (wire st)) req with
    | Responded r =>
        if is_retry retries remaining (req_method req) (status_code r)
             (bool_decide (is_Some (retry_after r)))
        then
          match remaining with
          | O =>
              if raise_on_status retries
              then (Raise (Exn RetryError
                             ("too many " +:+ pretty (status_code r) +:+ " error responses")),
                    sent req st)
              else (Ok r, sent req st)
          | S remaining' =>
              urlopen remaining' (S failures) retries req
                (rested retries (S failures) (Some r) (sent req st))
          end
        else (Ok r, sent req st)
    | ConnectFailed msg =>
        match remaining with
        | O => (Raise (Exn ConnectionError msg), sent req st)
        | S remaining' =>
            urlopen remaining' (S failures) retries req
              (rested retries (S failures) None (sent req st))
        end
    | ReadFailed msg =>
        if negb (is_method_retryable retries (req_method req))
        then (Raise (Exn ConnectionError msg), sent req st)
        else
          match remaining with
          | O => (Raise (Exn ConnectionError msg), sent req st)
          | S remaining' =>
              urlopen remaining' (S failures) retries req
                (rested retries (S failures) None (sent req st))
          end
    end.
Proof.
  assert (Hsleep : forall f resp s,
            Retry_sleep retries f resp s = (Ok tt, rested retries f resp s)).
  { intros f resp s. unfold rested, Retry_sleep.
    destruct (if respect_retry_after_header retries then _ else _) as [[|?]|];
      destruct (get_backoff_time retries f); done. }
  destruct remaining; simpl; unfold_monad; fold (sent req st);
    destruct (server (length (wire st)) req) as [r|msg|msg];
    repeat (match goal with |- context [if ?b then _ else _] => destruct b end);
    rewrite ?Hsleep; done.
Qed.

(** Every attempt of one call carries the same request; there are at most
    [remaining + 1] of them, and nothing but the wire and the sleeps
    changes. *)
Lemma urlopen_frame (retries : Retry) (req : PreparedRequest) (remaining : nat) :
  forall (failures : nat) (st : State),
  client (urlopen remaining failures retries req st).2 = client st
  /\ log (urlopen remaining failures retries req st).2 = log st
  /\ exists n, (1 <= n <= S remaining)%nat
       /\ wire (urlopen remaining failures retries req st).2 = wire st ++ replicate n req.
Proof.
  induction remaining as [|remaining IH]; intros failures st;
    rewrite urlopen_unfold.
  - destruct (server _ _) as [r|msg|msg];
      repeat (match goal with |- context [if ?b then _ else _] => destruct b end);
      simpl; repeat split; try done; exists 1%nat; (split; [lia|done]).
  - assert (Hrec : forall resp,
        let st1 := rested retries (S failures) resp (sent req st) in
        client (urlopen remaining (S failures) retries req st1).2 = client st
        /\ log (urlopen remaining (S failures) retries req st1).2 = log st
        /\ exists n, (1 <= n <= S (S remaining))%nat
             /\ wire (urlopen remaining (S failures) retries req st1).2
                = wire st ++ replicate n req).
    { intros resp st1.
      destruct (rested_frame retries (S failures) resp (sent req st)) as (Hc & Hw & Hl).
      destruct (IH (S failures) st1) as (IHc & IHl & n & Hn & IHw).
      fold st1 in Hc, Hw, Hl.
      split; [by rewrite IHc, Hc|]. split; [by rewrite IHl, Hl|].
      exists (S n). split; [lia|].
      rewrite IHw, Hw. simpl. by rewrite <- app_assoc. }
    destruct (server _ _) as [r|msg|msg];
      repeat (match goal with |- context [if ?b then _ else _] => destruct b end);
      try apply Hrec;
      simpl; repeat split; try done; exists 1%nat; (split; [lia|done]).
Qed.

End Facts.
End TransportFacts.

(** ** APIClient *)

Module ClientFacts.
Import TransportFacts.
Section Facts.
Context `{Network} `{PyRuntime}.

Lemma request_unfold (method endpoint : string) (kwargs : Kwargs) (st : State) :
  APIClient.request method endpoint kwargs st
  = match attempts method endpoint kwargs st with
    | (Ok r, st') =>
        (Ok r, logged [(INFO, "Response status: " +:+ pretty (status_code r))] st')
    | (Raise e, st') =>
        if is_RequestException e
        then (Raise e, logged [(ERROR, "Request failed: " +:+ exn_msg e)] st')
        else (Raise e, st')
    end.
Proof.
  unfold attempts, APIClient.request, Session_request, HTTPAdapter_send, announced,
    prepared, logged.
  unfold_monad. destruct kwargs as [[t|] [payload|] hs]; simpl;
    rewrite <- ?app_assoc; simpl;
    match goal with |- context [urlopen ?a ?b ?c ?d ?e] =>
      destruct (urlopen a b c d e) as [[r|e'] st'] end; simpl; try done;
    match goal with |- context [is_RequestException ?x] =>
      by destruct (is_RequestException x) end.
Qed.

Lemma request_result (method endpoint : string) (kwargs : Kwargs) (st : State) :
  (APIClient.request method endpoint kwargs st).1 = (attempts method endpoint kwargs st).1
  /\ wire (APIClient.request method endpoint kwargs st).2
     = wire (attempts method endpoint kwargs st).2
  /\ client (APIClient.request method endpoint kwargs st).2
     = client (attempts method endpoint kwargs st).2
  /\ slept (APIClient.request method endpoint kwargs st).2
     = slept (attempts method endpoint kwargs st).2.
Proof.
  rewrite request_unfold.
  destruct (attempts method endpoint kwargs st) as [[r|e] st']; simpl; [done|].
  by destruct (is_RequestException e).
Qed.

(** A call changes nothing of the client, and puts the same request on the
    wire at each of its attempts. *)
Lemma request_frame (method endpoint : string) (kwargs : Kwargs) (st : State) :
  client (APIClient.request method endpoint kwargs st).2 = client st
  /\ exists n, (1 <= n <= S (total (max_retries (client st))))%nat
       /\ wire (APIClient.request method endpoint kwargs st).2
          = wire st ++ replicate n (prepared (client st) method endpoint kwargs).
Proof.
  destruct (request_result method endpoint kwargs st) as (_ & Hw & Hc & _).
  rewrite Hw, Hc. unfold attempts.
  destruct (urlopen_frame (max_retries (client st))
              (prepared (client st) method endpoint kwargs)
              (total (max_retries (client st))) 0
              (announced method endpoint kwargs st)) as (Hc' & _ & n & Hn & Hw').
  split; [by rewrite Hc'|]. exists n. split; [done|]. by rewrite Hw'.
Qed.

(** *** The token invariant *)

Lemma set_auth_token_effect (token : pyval) (st : State) :
  APIClient.set_auth_token token st
  = (Ok tt,
     logged [(INFO, "Authentication token set")]
       {| client :=
            {| base_url := base_url (client st);
               timeout := timeout (client st);
               session_headers :=
                 <["authorization" := ("Authorization", "Bearer " +:+ py_str py_repr token)]>
                   (session_headers (client st));
               max_retries := max_retries (client st);
               auth_token := token |};
          wire := wire st; slept := slept st; log := log st |}).
Proof. reflexivity. Qed.

Lemma clear_auth_token_effect (st : State) :
  APIClient.clear_auth_token st
  = (Ok tt,
     logged [(INFO, "Authentication token cleared")]
       {| client :=
            {| base_url := base_url (client st);
               timeout := timeout (client st);
               session_headers := delete "authorization" (session_headers (client st));
               max_retries := max_retries (client st);
               auth_token := PNone |};
          wire := wire st; slept := slept st; log := log st |}).
Proof.
  unfold APIClient.clear_auth_token, CaseInsensitiveDict.contains,
    CaseInsensitiveDict.delitem, APIClient.set_headers, APIClient.set_token, logged.
  unfold_monad. simpl.
  case_bool_decide as Hin; simpl; [done|].
  rewrite delete_id; [done|].
  destruct (session_headers (client st) !! "authorization") eqn:E; [|done].
  exfalso. apply Hin. eauto.
Qed.



(** *** clear_auth_token *)




(** *** The retry policy of the mounted adapter *)

Abbreviation RETRIED_STATUSES := (status_forcelist APIClient.retry_strategy).




Lemma announced_frame (method endpoint : string) (kwargs : Kwargs) (st : State) :
  client (announced method endpoint kwargs st) = client st
  /\ wire (announced method endpoint kwargs st) = wire st
  /\ slept (announced method endpoint kwargs st) = slept st.
Proof. done. Qed.






End Facts.
End ClientFacts.

(** ** AuthHelper *)

Module AuthFacts.
Import TransportFacts ClientFacts AuthHelper.
Section Facts.
Context `{Network} `{PyRuntime}.


Lemma post_keeps_client (endpoint : string) (kwargs : Kwargs) (st : State) :
  client (APIClient.post endpoint kwargs st).2 = client st.
Proof.
  unfold APIClient.post.
  by destruct (request_frame "POST" endpoint kwargs st) as (-> & _).
Qed.


(** *** logout *)

Lemma logout_unfold (logout_endpoint : string) (st : State) :
  logout logout_endpoint st
  = match APIClient.post logout_endpoint no_kwargs st with
    | (Ok response, st1) =>
        (Ok (bool_decide (status_code response ∈ [200; 204])),
         logged [(INFO, "Logout successful")] (APIClient.clear_auth_token st1).2)
    | (Raise e, st1) =>
        (Ok false, logged [(ERROR, "Logout error: " +:+ exn_msg e)] st1)
    end.
Proof.
  unfold logout. unfold try_except at 1. unfold mbind at 1. unfold M_bind at 1.
  destruct (APIClient.post _ _ st) as [[response|e] st1]; [|done].
  unfold mbind, M_bind, mret, M_ret. by rewrite clear_auth_token_effect.
Qed.

(** C3, as the code has it.  [logout] never raises.  When the POST returns a
    response, whatever its status, the stored token and the [Authorization]
    header are cleared, and the result is [True] exactly for status 200 or
    204.  When the POST raises, the result is [False] and the client, its
    token and header included, is left as it was. *)
Theorem logout_reports (logout_endpoint : string) (st : State) :
  let posted := APIClient.post logout_endpoint no_kwargs st in
  let out := logout logout_endpoint st in
  (forall r, posted.1 = Ok r ->
     out.1 = Ok (bool_decide (status_code r = 200 \/ status_code r = 204))
     /\ auth_token (client out.2) = PNone
     /\ CaseInsensitiveDict.contains "Authorization" (session_headers (client out.2))
        = false)
  /\ (forall e, posted.1 = Raise e -> out.1 = Ok false /\ client out.2 = client st)
  /\ (out.1 = Ok true <->
      exists r, posted.1 = Ok r /\ (status_code r = 200 \/ status_code r = 204)).
Proof.
  intros posted out. unfold out. rewrite logout_unfold. fold posted.
  pose proof (post_keeps_client logout_endpoint no_kwargs st) as Hclient.
  fold posted in Hclient.
  assert (Hmem : forall z : Z, z ∈ [200; 204] <-> z = 200 \/ z = 204).
  { intros z. rewrite !elem_of_cons, elem_of_nil. tauto. }
  destruct posted as [[r|e] st1]; cbn [fst snd] in *.
  - rewrite clear_auth_token_effect. cbn [fst snd logged client].
    split; [|split].
    + intros ? [= <-]. split; [|split].
      * f_equal. apply bool_decide_ext, Hmem.
      * done.
      * unfold CaseInsensitiveDict.contains.
        change (PyString.lower "Authorization") with "authorization".
        cbn [session_headers]. rewrite lookup_delete_eq.
        apply bool_decide_eq_false_2. by intros [? ?].
    + by intros ? [=].
    + split.
      * intros [= Hb]. apply bool_decide_eq_true in Hb. exists r.
        split; [done|]. by apply Hmem.
      * intros (? & [= <-] & Hs). f_equal. apply bool_decide_eq_true. by apply Hmem.
  - cbn [fst snd logged client]. split; [by intros ? [=]|]. split.
    + by intros ? [= <-].
    + split; [by intros [=] | by intros (? & [=] & _)].
Qed.

End Facts.
End AuthFacts.

(** ** Concrete runs *)

Module Scenarios.
Import ClientFacts AuthFacts.




(** C3 as stated fails: with the service out of reach the POST raises, and
    [logout] leaves the token and the header on the client. *)
Lemma logout_keeps_token_when_post_raises :
  let st := (@APIClient.set_auth_token plain_repr (PStr "abc123")
               (@fresh_state unreachable plain_repr "https://shop.example")).2 in
  let out := @AuthHelper.logout unreachable plain_repr "/auth/logout" st in
  out.1 = Ok false
  /\ auth_token (client out.2) = PStr "abc123"
  /\ CaseInsensitiveDict.get "Authorization" (session_headers (client out.2))
     = Some "Bearer abc123".
Proof. vm_compute. repeat split. Qed.

Lemma logout_reports_witness :
  let st := (@APIClient.set_auth_token plain_repr (PStr "abc123")
               (@fresh_state logout_service plain_repr "https://shop.example")).2 in
  let out := @AuthHelper.logout logout_service plain_repr "/auth/logout" st in
  out.1 = Ok (bool_decide (status_code no_content = 200 \/ status_code no_content = 204))
  /\ auth_token (client out.2) = PNone
  /\ CaseInsensitiveDict.contains "Authorization" (session_headers (client out.2))
     = false.
Proof.
  intros st out.
  exact (proj1 (@logout_reports logout_service plain_repr "/auth/logout" st)
           no_content eq_refl).
Defined.




End Scenarios.

(** * Further properties *)

(** ** The base URL *)

Module BaseUrlFacts.

Lemma append_cons (a : ascii) (s t : string) : String a s +:+ t = String a (s +:+ t).
Proof. reflexivity. Qed.

Lemma append_nil (t : string) : EmptyString +:+ t = t.
Proof. reflexivity. Qed.

Lemma rstrip_copies (c : ascii) (s : string) :
  exists n, s = PyString.rstrip c s +:+ copies c n.
Proof.
  induction s as [|a s [n IH]]; [by exists 0%nat|].
  cbn [PyString.rstrip]. destruct (PyString.rstrip c s) as [|b r] eqn:Hr.
  - rewrite append_nil in IH. destruct (Ascii.eqb_spec a c) as [->|Hne].
    + exists (S n). rewrite append_nil. cbn [copies]. by rewrite <- IH.
    + exists n. rewrite append_cons, append_nil. by rewrite <- IH.
  - exists n. rewrite append_cons. by rewrite <- IH.
Qed.

Lemma rstrip_no_trailing (c : ascii) (s : string) :
  forall s', PyString.rstrip c s ≠ s' +:+ String c EmptyString.
Proof.
  induction s as [|a s IH]; intros s'; cbn [PyString.rstrip].
  - destruct s'; [rewrite append_nil | rewrite append_cons]; done.
  - destruct (PyString.rstrip c s) as [|b r] eqn:Hr.
    + destruct (Ascii.eqb_spec a c) as [->|Hne].
      * destruct s'; [rewrite append_nil | rewrite append_cons]; done.
      * destruct s' as [|a' [|? ?]]; rewrite ?append_cons, ?append_nil;
          intros Heq; simplify_eq.
    + destruct s' as [|a' s'']; rewrite ?append_cons, ?append_nil.
      * intros Heq; simplify_eq.
      * intros [= -> Heq]. by apply (IH s'').
Qed.

Lemma rstrip_fixed (c : ascii) (s : string) :
  (forall s', s ≠ s' +:+ String c EmptyString) -> PyString.rstrip c s = s.
Proof.
  induction s as [|a s IH]; intros Hs; [done|]. cbn [PyString.rstrip].
  rewrite IH.
  - destruct s as [|b r]; [|done].
    destruct (Ascii.eqb_spec a c) as [->|Hne]; [|done].
    by destruct (Hs EmptyString).
  - intros s' ->. by apply (Hs (String a s')).
Qed.

(** X1.  [APIClient(base_url)] keeps the URL it is given less the slashes at
    its end, whatever their number: the stored base URL does not end in a
    slash, and a URL that does not end in one is stored as it is.  The
    timeout is stored as given. *)
Theorem init_normalises_base_url `{Network} (url : string) (seconds : Z) :
  (exists n, url = base_url (APIClient.__init__ url seconds) +:+ copies "/" n)
  /\ (forall s, base_url (APIClient.__init__ url seconds) ≠ s +:+ "/")
  /\ ((forall s, url ≠ s +:+ "/") -> base_url (APIClient.__init__ url seconds) = url)
  /\ base_url (APIClient.__init__ (base_url (APIClient.__init__ url seconds)) seconds)
     = base_url (APIClient.__init__ url seconds)
  /\ timeout (APIClient.__init__ url seconds) = seconds.
Proof.
  unfold APIClient.__init__. cbn [base_url timeout].
  split; [apply rstrip_copies|]. split; [apply rstrip_no_trailing|].
  split; [apply rstrip_fixed|]. split; [|done].
  apply rstrip_fixed, rstrip_no_trailing.
Qed.

End BaseUrlFacts.

(** ** ResponseValidator on parsed bodies *)

Module ParsedBodyFacts.
Import ResponseValidator.

Lemma all_fields_in_scalar (fields : list string) (v : pyval) :
  (exists e, forall key, py_contains key v = Raise e) ->
  all_fields_in fields v
  = match fields with [] => Ok true | key :: _ => py_contains key v end.
Proof. intros [e He]. destruct fields as [|key rest]; simpl; [done|]. by rewrite He. Qed.

Lemma all_fields_in_total (fields : list string) (v : pyval) :
  (exists b, all_fields_in fields v = Ok b)
  \/ (exists e, all_fields_in fields v = Raise e /\ is_TypeError e = true).
Proof.
  induction fields as [|key rest IH]; simpl; [eauto|].
  destruct v; simpl; eauto;
    match goal with |- context [if ?b then _ else _] => destruct b end; eauto.
Qed.

(** X2.  On a body that parses, [validate_response_schema] never raises,
    whatever the JSON type of the body.  With no required field it returns
    true; on a JSON object it returns true exactly when every required field
    is a key of the object; on [null], a number or a boolean it returns
    false as soon as one field is required. *)
Theorem validate_response_schema_on_parsed (r : Response) (body : pyval)
    (required_fields : list string) :
  json r = Ok body ->
  (exists b, validate_response_schema r required_fields = Ok b)
  /\ (required_fields = [] -> validate_response_schema r required_fields = Ok true)
  /\ (forall d, body = PDict d ->
        validate_response_schema r required_fields
        = Ok (forallb (fun f => bool_decide (is_Some (d !! f))) required_fields))
  /\ (required_fields ≠ [] ->
      match body with
      | PNone | PBool _ | PInt _ | PFloat _ =>
          validate_response_schema r required_fields = Ok false
      | _ => True
      end).
Proof.
  intros Hj. unfold validate_response_schema. rewrite Hj. cbn [result_bind].
  split; [|split; [|split]].
  - destruct (all_fields_in_total required_fields body) as [[b ->]|(e & -> & He)];
      cbn [result_except]; [eauto|].
    rewrite He, orb_true_r. eauto.
  - by intros ->.
  - intros d ->. by rewrite ValidatorFacts.all_fields_in_dict.
  - intros Hne. destruct required_fields as [|key rest]; [done|].
    by destruct body.
Qed.

(** X3.  On an error status, [validate_error_response] tests membership the
    way Python's [in] does on the parsed body: a JSON object passes when it
    has the key [error] or the key [message], a JSON array when one of its
    elements is the string [error] or [message], and a JSON string when it
    contains either word. *)
Theorem validate_error_response_on_containers (r : Response) :
  400 <= status_code r ->
  (forall d, json r = Ok (PDict d) ->
     validate_error_response r
     = Ok (bool_decide (is_Some (d !! "error")) || bool_decide (is_Some (d !! "message"))))
  /\ (forall l, json r = Ok (PList l) ->
        validate_error_response r
        = Ok (existsb (py_eq_str "error") l || existsb (py_eq_str "message") l))
  /\ (forall s, json r = Ok (PStr s) ->
        validate_error_response r
        = Ok (PyString.contains "error" s || PyString.contains "message" s)).
Proof.
  intros Hs. unfold validate_error_response.
  destruct (Z.leb_spec 400 (status_code r)); [|lia].
  repeat split; intros x ->; cbn;
    match goal with |- context [if ?b then _ else _] => by destruct b end.
Qed.

End ParsedBodyFacts.

(** ** Utility functions *)

Module UtilityFacts.

Lemma append_inj_r (s t1 t2 : string) : s +:+ t1 = s +:+ t2 -> t1 = t2.
Proof.
  induction s as [|a s IH]; [done|].
  rewrite !BaseUrlFacts.append_cons. intros [= Heq]. by apply IH.
Qed.

Lemma append_inj_l (s1 s2 t : string) :
  String.length s1 = String.length s2 -> s1 +:+ t = s2 +:+ t -> s1 = s2.
Proof.
  revert s2. induction s1 as [|a s1 IH]; intros [|b s2] Hlen; try done.
  rewrite !BaseUrlFacts.append_cons. intros [= -> Heq]. f_equal.
  apply IH; [by injection Hlen | done].
Qed.

Lemma length_append (s t : string) :
  String.length (s +:+ t) = (String.length s + String.length t)%nat.
Proof.
  induction s as [|a s IH]; [done|].
  rewrite BaseUrlFacts.append_cons. simpl. by rewrite IH.
Qed.

(** X4.  Two calls of [generate_test_email] give the same address exactly
    when the clock shows the same whole second at both: the address is
    unique from one second to the next, and not within one second. *)
Theorem generate_test_email_same_second (now later : float) (t1 t2 : Z) :
  py_int_of_float now = Ok t1 -> py_int_of_float later = Ok t2 ->
  (exists a1 a2, generate_test_email now = Ok a1 /\ generate_test_email later = Ok a2
                 /\ (a1 = a2 <-> t1 = t2)).
Proof.
  intros H1 H2. unfold generate_test_email. rewrite H1, H2. cbn [result_bind].
  eexists _, _. split; [done|]. split; [done|]. split; [|by intros ->].
  intros Heq. apply append_inj_r in Heq.
  apply (inj pretty). apply (append_inj_l _ _ "@example.com"); [|done].
  apply (f_equal String.length) in Heq. rewrite !length_append in Heq. lia.
Qed.

Section Masking.
Context `{PyRuntime}.

(** What [mask_sensitive_data] computes, by the items of the dict it
    returns. *)
Lemma mask_sensitive_data_items (heap : Heap) (data : nat)
    (items : gmap string pyval) (sensitive_fields : option (list string)) :
  heap !! data = Some items ->
  exists heap' out,
    mask_sensitive_data data sensitive_fields heap = Some (fresh (dom heap), heap')
    /\ heap' !! fresh (dom heap) = Some out
    /\ masked_so_far items (default DEFAULT_SENSITIVE_FIELDS sensitive_fields) out
    /\ (forall l, l ≠ fresh (dom heap) -> heap' !! l = heap !! l).
Proof.
  intros Hdata. unfold mask_sensitive_data, dict_copy. rewrite Hdata. simpl.
  destruct (MaskFacts.mask_fields_loop (fresh (dom heap)) items
              (default DEFAULT_SENSITIVE_FIELDS sensitive_fields)
              (<[fresh (dom heap) := items]> heap) items [])
    as (out & Hm & Hout & Hframe).
  { apply lookup_insert_eq. }
  { intros k. rewrite bool_decide_eq_false_2 by apply not_elem_of_nil.
    by destruct (items !! k). }
  eexists _, out. split; [done|]. split; [done|]. split; [done|].
  intros l Hl. rewrite Hframe by done. by rewrite lookup_insert_ne.
Qed.

(** X5.  Masking is idempotent, and masks nothing when it is given no field
    name: masking the dict that [mask_sensitive_data] returned, with the same
    field names, gives a dict with the same items; and with an empty list of
    field names the dict returned has the items of the input. *)
Theorem mask_sensitive_data_idempotent (heap : Heap) (data : nat)
    (items : gmap string pyval) (sensitive_fields : option (list string)) :
  heap !! data = Some items ->
  exists masked heap1 again heap2 out,
    mask_sensitive_data data sensitive_fields heap = Some (masked, heap1)
    /\ mask_sensitive_data masked sensitive_fields heap1 = Some (again, heap2)
    /\ heap1 !! masked = Some out
    /\ heap2 !! again = Some out
    /\ heap2 !! masked = Some out
    /\ again ≠ masked
    /\ (sensitive_fields = Some [] -> out = items).
Proof.
  intros Hdata.
  destruct (mask_sensitive_data_items heap data items sensitive_fields Hdata)
    as (heap1 & out & Hmask1 & Hout1 & Hitems1 & _).
  destruct (mask_sensitive_data_items heap1 (fresh (dom heap)) out sensitive_fields Hout1)
    as (heap2 & out2 & Hmask2 & Hout2 & Hitems2 & Hframe2).
  assert (Hsame : out2 = out).
  { apply map_eq. intros k. rewrite Hitems2, Hitems1.
    destruct (items !! k) as [v|]; [|done]. cbn.
    case_bool_decide; [|done]. by rewrite MaskFacts.masked_value_idem. }
  subst out2.
  assert (Hne : fresh (dom heap1) ≠ fresh (dom heap)).
  { intros Heq. pose proof (is_fresh (dom heap1)) as Hfresh.
    rewrite Heq in Hfresh. apply Hfresh, elem_of_dom. eauto. }
  exists (fresh (dom heap)), heap1, (fresh (dom heap1)), heap2, out.
  split; [done|]. split; [done|]. split; [done|]. split; [done|].
  split; [|split; [done|]].
  - rewrite Hframe2 by done. done.
  - intros ->. apply map_eq. intros k. rewrite Hitems1. cbn.
    rewrite bool_decide_eq_false_2 by apply not_elem_of_nil.
    by destruct (items !! k).
Qed.

End Masking.
End UtilityFacts.

(** ** TestDataLoader: the two lookups *)

Module FixtureFacts.
Import TestDataLoader.

Lemma lookup_record_unfold `{FileSystem} (section name : string)
    (file_path : option string) :
  lookup_record section name file_path
  = ((result_bind (load_test_data file_path).1 (fun test_data =>
        result_bind (py_dict_get test_data section (PDict ∅)) (fun entries =>
          py_dict_get entries name (PDict ∅)))),
     (load_test_data file_path).2).
Proof. unfold lookup_record. by destruct (load_test_data file_path). Qed.

(** X6.  [get_user_data] and [get_product_data] look a record up under
    [valid_users], respectively [products].  When the fixture file is missing
    or is not JSON, and when the section or the record is not there, the
    result is the empty mapping and nothing is raised; when both are there
    the result is the record.  A fixture, or a section, that is not a JSON
    object makes the lookup raise. *)
Theorem fixture_lookup `{FileSystem} (section name : string)
    (getter : string -> option string -> Result pyval * list (log_level * string))
    (file_path : option string) :
  (section, getter) ∈ [("valid_users", get_user_data); ("products", get_product_data)] ->
  let path := default default_test_data_path file_path in
  let loaded := result_bind (open_text path) json_loads in
  (forall e, loaded = Raise e -> is_FileNotFoundError e || is_JSONDecodeError e = true ->
     (getter name file_path).1 = Ok (PDict ∅))
  /\ (forall d, loaded = Ok (PDict d) ->
        (d !! section = None -> getter name file_path = (Ok (PDict ∅), []))
        /\ (forall entries, d !! section = Some (PDict entries) ->
              getter name file_path = (Ok (default (PDict ∅) (entries !! name)), []))
        /\ (forall v, d !! section = Some v -> (forall entries, v ≠ PDict entries) ->
              exists e, getter name file_path = (Raise e, [])))
  /\ (forall v, loaded = Ok v -> (forall d, v ≠ PDict d) ->
        exists e, getter name file_path = (Raise e, [])).
Proof.
  intros Hgetter path loaded.
  assert (Hdef : getter name file_path = lookup_record section name file_path).
  { repeat (apply elem_of_cons in Hgetter as [[= -> ->]|Hgetter]); try done.
    by apply elem_of_nil in Hgetter. }
  rewrite Hdef, lookup_record_unfold. clear Hdef Hgetter.
  unfold load_test_data. fold path. fold loaded.
  destruct loaded as [v|e].
  - split; [by intros ? [=]|]. split.
    + intros d [= ->]. cbn. split; [by intros ->|]. split.
      * by intros entries ->.
      * intros v Hv Hnot. rewrite Hv. cbn.
        destruct v; cbn; eauto. by destruct (Hnot d0).
    + intros v' [= <-] Hnot. destruct v; cbn; eauto. by destruct (Hnot d).
  - split; [|split; [by intros ? [=] | by intros ? [=]]].
    intros e' [= <-] He.
    destruct (is_FileNotFoundError e); [done|].
    destruct (is_JSONDecodeError e); [done|done].
Qed.

End FixtureFacts.

(** ** setup.py: the steps on files *)

Module StepFacts.
Import SetupSteps.




Section WithParser.
Variable json_loads : string -> Result pyval.



End WithParser.
End StepFacts.

(** ** setup.py: what main reports *)

Module ReportFacts.
Import Setup.

Section Facts.
Variable Machine : Type.
Variables check_python_version create_virtual_environment install_dependencies
  create_env_file create_reports_directory validate_test_data run_sample_test
  : Machine -> step_outcome * Machine.

Abbreviation script_steps :=
  (steps Machine check_python_version create_virtual_environment install_dependencies
     create_env_file create_reports_directory validate_test_data run_sample_test).
Abbreviation script_main :=
  (main Machine check_python_version create_virtual_environment install_dependencies
     create_env_file create_reports_directory validate_test_data run_sample_test).

(** X10.  When a step fails, [main] ends its log with two error records:
    the first names the failed steps, in the order of the script and
    separated by a comma and a space, and they are exactly the steps that
    returned [False] or raised; the second points to [setup.log].  Nothing
    is printed. *)
Theorem main_reports_failed_steps (m : Machine) :
  let failed := failed_names script_steps (outcomes Machine script_steps m).1 in
  failed ≠ [] ->
  (exists earlier,
     log _ (script_main m).2
     = earlier
       ++ [(ERROR, "Setup completed with errors. Failed steps: "
                   +:+ PyString.join ", " failed);
           (ERROR, "Please check the setup.log file for details and resolve the issues.")])
  /\ stdout _ (script_main m).2 = []
  /\ (script_main m).1 = 1.
Proof.
  intros failed Hfailed.
  set (r0 := Setup.logger Machine INFO "Starting E-commerce API Test Suite setup..."
               {| machine := m; log := []; stdout := [] |}).
  destruct (SetupFacts.loop_spec Machine script_steps [] r0)
    as (_ & Hout & Hnames & _).
  change (machine Machine r0) with m in Hnames. rewrite app_nil_l in Hnames.
  fold failed in Hnames.
  unfold main, main_with. fold r0.
  destruct (foldl (run_step Machine) ([], r0) script_steps) as [names r] eqn:Hloop.
  cbn [fst snd] in Hout, Hnames. subst names.
  destruct failed as [|name rest] eqn:Hf; [done|]. cbn [fst snd].
  split; [|split; [|done]].
  - exists (log _ r). cbn. by rewrite <- app_assoc.
  - cbn. by rewrite Hout.
Qed.

End Facts.
End ReportFacts.

(** ** What goes on the wire *)

Module WireFacts.
Import TransportFacts ClientFacts.
Section Facts.
Context `{Network} `{PyRuntime}.








End Facts.
End WireFacts.

(** ** Sessions *)

Module SessionFacts.
Import TransportFacts ClientFacts.
Section Facts.
Context `{Network} `{PyRuntime}.

(** X14.  Setting a token twice leaves the client as setting the second
    alone does; clearing twice is clearing once; and on a client without
    token or [Authorization] header, setting a token and clearing it gives
    the client back as it was.  None of the two puts anything on the
    wire. *)
Theorem set_and_clear_compose (first second : pyval) (st : State) :
  client (APIClient.set_auth_token second (APIClient.set_auth_token first st).2).2
    = client (APIClient.set_auth_token second st).2
  /\ client (APIClient.clear_auth_token (APIClient.clear_auth_token st).2).2
     = client (APIClient.clear_auth_token st).2
  /\ (auth_token (client st) = PNone ->
      session_headers (client st) !! "authorization" = None ->
      client (APIClient.clear_auth_token (APIClient.set_auth_token first st).2).2
      = client st)
  /\ wire (APIClient.set_auth_token first st).2 = wire st
  /\ wire (APIClient.clear_auth_token st).2 = wire st.
Proof.
  rewrite !set_auth_token_effect, !clear_auth_token_effect. cbn.
  split; [by rewrite insert_insert_eq|].
  split; [by rewrite delete_delete_eq|]. (split; [|done]).
  intros Htoken Hheader. rewrite delete_insert_eq, delete_id by done.
  destruct (client st). cbn in *. by subst.
Qed.



Lemma urlopen_unreachable (retries : Retry) (req : PreparedRequest) (msg : string)
    (remaining : nat) :
  forall (failures : nat) (st : State),
  (forall i, (i <= remaining)%nat ->
     server (length (wire st) + i) req = ConnectFailed msg) ->
  (urlopen remaining failures retries req st).1 = Raise (Exn ConnectionError msg)
  /\ wire (urlopen remaining failures retries req st).2
     = wire st ++ replicate (S remaining) req.
Proof.
  induction remaining as [|remaining IH]; intros failures st Hdown;
    rewrite urlopen_unfold;
    pose proof (Hdown 0%nat ltac:(lia)) as Hfirst;
    rewrite Nat.add_0_r in Hfirst; rewrite Hfirst.
  - done.
  - destruct (rested_frame retries (S failures) None (sent req st)) as (_ & Hw & _).
    destruct (IH (S failures) (rested retries (S failures) None (sent req st)))
      as (Hres & Hwire).
    { intros i Hi. rewrite Hw. cbn. rewrite length_app. cbn.
      replace (length (wire st) + 1 + i)%nat with (length (wire st) + S i)%nat by lia.
      apply Hdown. lia. }
    split; [done|]. rewrite Hwire, Hw. cbn. by rewrite <- app_assoc.
Qed.

(** X16.  When the service cannot be reached, a call of any method tries
    once more than the adapter's total of retries, and then raises
    [ConnectionError] to the caller. *)
Theorem request_unreachable (method endpoint : string) (kwargs : Kwargs)
    (msg : string) (st : State) :
  let req := prepared (client st) method endpoint kwargs in
  let out := APIClient.request method endpoint kwargs st in
  (forall i, (i <= total (max_retries (client st)))%nat ->
     server (length (wire st) + i) req = ConnectFailed msg) ->
  out.1 = Raise (Exn ConnectionError msg)
  /\ new_requests st out.2 = replicate (S (total (max_retries (client st)))) req
  /\ client out.2 = client st.
Proof.
  intros req out Hdown. unfold out.
  destruct (request_result method endpoint kwargs st) as (Hres & Hw & Hc & _).
  destruct (request_frame method endpoint kwargs st) as (Hclient & _).
  destruct (urlopen_unreachable (max_retries (client st)) req msg
              (total (max_retries (client st))) 0
              (announced method endpoint kwargs st) Hdown) as (Hraise & Hwire).
  unfold attempts in Hres, Hw. fold req in Hres, Hw.
  split; [by rewrite Hres|]. split; [|done].
  unfold new_requests. rewrite Hw, Hwire.
  change (wire (announced method endpoint kwargs st)) with (wire st).
  by rewrite drop_app_length.
Qed.

End Facts.
End SessionFacts.

(** ** The endpoint helpers *)

Module HelperFacts.
Import TransportFacts ClientFacts.
Section Facts.
Context `{Network} `{PyRuntime}.







End Facts.
End HelperFacts.

(** ** Concrete runs of the further properties *)

Module FurtherScenarios.
Import ClientFacts.

Lemma validate_response_schema_on_parsed_witness :
  (exists b, ResponseValidator.validate_response_schema
               (response_of 500 "null" (Ok PNone)) ["error"] = Ok b)
  /\ ResponseValidator.validate_response_schema
       (response_of 500 "null" (Ok PNone)) ["error"] = Ok false.
Proof.
  destruct (ParsedBodyFacts.validate_response_schema_on_parsed
              (response_of 500 "null" (Ok PNone)) PNone ["error"] eq_refl)
    as (Htotal & _ & _ & Hscalar).
  split; [exact Htotal|]. by apply Hscalar.
Defined.

Lemma validate_error_response_on_containers_witness :
  ResponseValidator.validate_error_response
    (response_of 502 "text" (Ok (PStr "upstream error"))) = Ok true
  /\ ResponseValidator.validate_error_response
       (response_of 404 "[]" (Ok (PList []))) = Ok false.
Proof.
  split.
  - refine (proj2 (proj2 (ParsedBodyFacts.validate_error_response_on_containers
                            (response_of 502 "text" (Ok (PStr "upstream error"))) _))
              "upstream error" eq_refl).
    cbn. lia.
  - refine (proj1 (proj2 (ParsedBodyFacts.validate_error_response_on_containers
                            (response_of 404 "[]" (Ok (PList []))) _)) [] eq_refl).
    cbn. lia.
Defined.

Lemma generate_test_email_same_second_witness :
  exists a1 a2,
    generate_test_email 1699999999.25%float = Ok a1
    /\ generate_test_email 1699999999.75%float = Ok a2
    /\ (a1 = a2 <-> 1699999999 = 1699999999).
Proof.
  exact (UtilityFacts.generate_test_email_same_second
           1699999999.25%float 1699999999.75%float 1699999999 1699999999
           eq_refl eq_refl).
Defined.

Lemma mask_sensitive_data_idempotent_witness :
  exists masked heap1 again heap2 out,
    @mask_sensitive_data plain_repr 0%nat None {[ 0%nat := login_payload ]}
      = Some (masked, heap1)
    /\ @mask_sensitive_data plain_repr masked None heap1 = Some (again, heap2)
    /\ heap1 !! masked = Some out
    /\ heap2 !! again = Some out
    /\ heap2 !! masked = Some out
    /\ again ≠ masked
    /\ ((None : option (list string)) = Some [] -> out = login_payload).
Proof.
  exact (@UtilityFacts.mask_sensitive_data_idempotent plain_repr
           {[ 0%nat := login_payload ]} 0%nat login_payload None eq_refl).
Defined.

Lemma fixture_lookup_witness :
  @TestDataLoader.get_user_data fixture_files "standard_user" None
    = (Ok (PDict {[ "email" := PStr "user@example.com" ]}), [])
  /\ @TestDataLoader.get_product_data fixture_files "phone" None = (Ok (PDict ∅), [])
  /\ (@TestDataLoader.get_user_data fixture_files "standard_user"
        (Some "missing.json")).1 = Ok (PDict ∅).
Proof.
  split; [|split].
  - refine (proj1 (proj2 (proj1 (proj2
              (@FixtureFacts.fixture_lookup fixture_files "valid_users" "standard_user"
                 TestDataLoader.get_user_data None _)) _ eq_refl)) _ eq_refl).
    apply elem_of_cons. by left.
  - refine (proj1 (proj2 (proj1 (proj2
              (@FixtureFacts.fixture_lookup fixture_files "products" "phone"
                 TestDataLoader.get_product_data None _)) _ eq_refl)) _ eq_refl).
    apply elem_of_cons. right. apply elem_of_cons. by left.
  - refine (proj1 (@FixtureFacts.fixture_lookup fixture_files "valid_users"
                     "standard_user" TestDataLoader.get_user_data
                     (Some "missing.json") _) _ eq_refl eq_refl).
    apply elem_of_cons. by left.
Defined.



Lemma main_reports_failed_steps_witness :
  let pass := fun m : unit => (Setup.Returned true, m) in
  let refuse := fun m : unit => (Setup.Returned false, m) in
  let crash := fun m : unit => (Setup.Raised (Exn OtherException "disk full"), m) in
  (exists earlier,
     Setup.log unit (Setup.main unit pass refuse pass pass pass crash pass tt).2
     = earlier
       ++ [(ERROR, "Setup completed with errors. Failed steps: "
                   +:+ "Creating virtual environment, Validating test data");
           (ERROR, "Please check the setup.log file for details and resolve the issues.")])
  /\ Setup.stdout unit (Setup.main unit pass refuse pass pass pass crash pass tt).2 = []
  /\ (Setup.main unit pass refuse pass pass pass crash pass tt).1 = 1.
Proof.
  intros pass refuse crash.
  refine (ReportFacts.main_reports_failed_steps unit pass refuse pass pass pass crash
            pass tt _).
  discriminate.
Defined.



Lemma request_unreachable_witness :
  let st := @fresh_state unreachable plain_repr "https://shop.example" in
  let out := @APIClient.request unreachable plain_repr "PATCH" "/cart" no_kwargs st in
  out.1 = Raise (Exn ConnectionError "Connection refused")
  /\ new_requests st out.2 = replicate 4 (prepared (client st) "PATCH" "/cart" no_kwargs)
  /\ client out.2 = client st.
Proof.
  intros st out.
  refine (@SessionFacts.request_unreachable unreachable plain_repr "PATCH" "/cart"
            no_kwargs "Connection refused" st _).
  intros i Hi. reflexivity.
Defined.


End FurtherScenarios.
